(** * AgriGPT front end: the session-scoped request layer

    A shallow embedding of [frontend-main/src/api/client.ts] (the axios
    instance and its two interceptors) and of the request builders
    ([getSessionId], [buildFormData], [postFormData], [askText],
    [askImage], [askChat]; lines 135-208 of
    [frontend-main/src/components/WeatherHeader.tsx], the module that
    imports [apiClient] from ["./client"]).

    JavaScript strings are sequences of UTF-16 code units; objects used as
    dictionaries ([localStorage], the header bag) are finite maps; objects
    whose property order is observed ([Object.entries], [FormData]) are
    association lists.  Browser state is threaded explicitly. *)

From Stdlib Require Import ZArith NArith String Ascii.
From stdpp Require Import gmap list.

Set Default Proof Using "Type".
#[local] Set Warnings "-register-all".

(** ** JavaScript values *)

Module JS.

(** A string is a list of UTF-16 code units. *)
Abbreviation jsstring := (list N).

(** An ASCII literal as a JavaScript string. *)
Definition lit (s : string) : jsstring :=
  map N_of_ascii (list_ascii_of_string s).

(** ECMAScript [WhiteSpace]: TAB, VT, FF, ZWNBSP and the code points of
    general category Zs. *)
Definition is_white_space (c : N) : bool :=
  (c =? 0x0009)%N || (c =? 0x000B)%N || (c =? 0x000C)%N || (c =? 0xFEFF)%N
  || (c =? 0x0020)%N || (c =? 0x00A0)%N || (c =? 0x1680)%N
  || ((0x2000 <=? c)%N && (c <=? 0x200A)%N)
  || (c =? 0x202F)%N || (c =? 0x205F)%N || (c =? 0x3000)%N.

(** ECMAScript [LineTerminator]: LF, CR, LS, PS. *)
Definition is_line_terminator (c : N) : bool :=
  (c =? 0x000A)%N || (c =? 0x000D)%N || (c =? 0x2028)%N || (c =? 0x2029)%N.

(** The code units [String.prototype.trim] strips. *)
Definition is_trimmed_unit (c : N) : bool :=
  is_white_space c || is_line_terminator c.

Fixpoint trimStart (s : jsstring) : jsstring :=
  match s with
  | [] => []
  | c :: s' => if is_trimmed_unit c then trimStart s' else s
  end.

Definition trimEnd (s : jsstring) : jsstring :=
  rev (trimStart (rev s)).

(** [String.prototype.trim] *)
Definition trim (s : jsstring) : jsstring :=
  trimEnd (trimStart s).

(** A string made of white space and line terminators only. *)
Definition whitespace_only (s : jsstring) : bool :=
  forallb is_trimmed_unit s.

(** [ToBoolean] on a string: only the empty string is falsy. *)
Definition truthy_string (s : jsstring) : bool :=
  match s with [] => false | _ :: _ => true end.

(** The values that cross the model: what a decoded response body, a
    [detail] field or a property read may be.  Numbers are the integers
    (status codes); an object is its own-property list. *)
Inductive JsValue : Type :=
| JUndefined
| JNull
| JBool (b : bool)
| JNumber (z : Z)
| JString (s : jsstring)
| JArray (items : list JsValue)
| JObject (props : list (jsstring * JsValue)).

(** [ToBoolean] *)
Definition truthy (v : JsValue) : bool :=
  match v with
  | JUndefined | JNull => false
  | JBool b => b
  | JNumber z => negb (z =? 0)%Z
  | JString s => truthy_string s
  | JArray _ | JObject _ => true
  end.

(** [a || b] *)
Definition js_or (a b : JsValue) : JsValue :=
  if truthy a then a else b.

Fixpoint own_property (props : list (jsstring * JsValue)) (k : jsstring)
  : option JsValue :=
  match props with
  | [] => None
  | (k', v) :: rest => if decide (k' = k) then Some v else own_property rest k
  end.

(** [v?.k] for a key that no built-in prototype defines: [undefined] on
    [undefined] and [null] (the chain short-circuits), the own property of
    an object, [undefined] on primitives and arrays. *)
Definition optional_get (v : JsValue) (k : jsstring) : JsValue :=
  match v with
  | JObject props => default JUndefined (own_property props k)
  | _ => JUndefined
  end.

End JS.
Import JS.

(** ** The browser: files, form data, storage, identifiers *)

Module Browser.

(** A [File] (the only [Blob]s the builders are handed). *)
Record File : Type := mkFile {
  file_name : jsstring;
  file_type : jsstring;
  file_bytes : list N;
}.

Inductive FormDataEntryValue : Type :=
| EntryString (s : jsstring)
| EntryFile (f : File).

(** A [FormData] is its entry list, in append order; names may repeat. *)
Abbreviation FormData := (list (jsstring * FormDataEntryValue)).

(** [fd.append(name, value)]: the entry records the value as given. *)
Definition append (fd : FormData) (name : jsstring) (value : FormDataEntryValue)
  : FormData :=
  fd ++ [(name, value)].

(** The values of the entries called [name], in order ([fd.getAll(name)]). *)
Definition getAll (fd : FormData) (name : jsstring) : list FormDataEntryValue :=
  omap (λ e, if decide (e.1 = name) then Some e.2 else None) fd.

(** [fd.has(name)] *)
Definition has (fd : FormData) (name : jsstring) : bool :=
  bool_decide (getAll fd name ≠ []).

(** [Storage.getItem]: [null] is [None]. *)
Definition getItem (st : gmap jsstring jsstring) (key : jsstring)
  : option jsstring :=
  st !! key.

(** [Storage.setItem] *)
Definition setItem (st : gmap jsstring jsstring) (key value : jsstring)
  : gmap jsstring jsstring :=
  <[key := value]> st.

(** Digits of [Number.prototype.toString(36)]: [0-9a-z]. *)
Definition digit36 (d : N) : N :=
  if (d <? 10)%N then (48 + d)%N else (87 + d)%N.

Fixpoint digits36 (fuel : nat) (n : N) (acc : jsstring) : jsstring :=
  match fuel with
  | O => acc
  | S fuel' =>
      let acc' := digit36 (n mod 36) :: acc in
      if (n / 36 =? 0)%N then acc' else digits36 fuel' (n / 36) acc'
  end.

Definition N_toString36 (n : N) : jsstring :=
  digits36 (S (N.to_nat (N.log2 n))) n [].

(** [z.toString(36)] for an integer-valued number. *)
Definition toString36 (z : Z) : jsstring :=
  match z with
  | Z0 => N_toString36 0
  | Zpos p => N_toString36 (Npos p)
  | Zneg p => 45%N :: N_toString36 (Npos p)
  end.

(** Reading a base-36 numeral back. *)
Definition undigit36 (c : N) : N :=
  if (c <? 58)%N then (c - 48)%N else (c - 87)%N.

Definition parse36 (s : jsstring) : N :=
  fold_left (λ a c, (36 * a + undigit36 c)%N) s 0%N.

(** [s.substr(2)] *)
Definition substr2 (s : jsstring) : jsstring := drop 2 s.

Definition hex_digit (d : N) : N :=
  if (d <? 10)%N then (48 + d)%N else (87 + d)%N.

(** The [i]-th of the 32 hexadecimal digits of a version-4 UUID drawn from
    128 random bits: digit 12 is the version, digit 16 carries the
    variant [10xx]. *)
Definition uuid_nibble (bits : N) (i : nat) : N :=
  let d := N.land (N.shiftr bits (4 * N.of_nat (31 - i))) 15 in
  if (i =? 12)%nat then 4%N
  else if (i =? 16)%nat then N.lor 8 (N.land d 3)
  else d.

Definition uuid_hex (bits : N) (from len : nat) : jsstring :=
  map (λ i, hex_digit (uuid_nibble bits i)) (seq from len).

(** [crypto.randomUUID()] on the random bits it draws: 8-4-4-4-12. *)
Definition randomUUID (bits : N) : jsstring :=
  uuid_hex bits 0 8 ++ [45%N] ++ uuid_hex bits 8 4 ++ [45%N]
  ++ uuid_hex bits 12 4 ++ [45%N] ++ uuid_hex bits 16 4 ++ [45%N]
  ++ uuid_hex bits 20 12.

End Browser.
Import Browser.

(** ** client.ts *)

Module Client.

Definition DEFAULT_BASE_URL : jsstring := lit "http://localhost:8000".

(** [import.meta.env.VITE_API_BASE_URL?.trim() || "http://localhost:8000"];
    an unset variable is [None]. *)
Definition API_BASE_URL (VITE_API_BASE_URL : option jsstring) : jsstring :=
  match trim <$> VITE_API_BASE_URL with
  | Some s => if truthy_string s then s else DEFAULT_BASE_URL
  | None => DEFAULT_BASE_URL
  end.

Definition CONTENT_TYPE : jsstring := lit "Content-Type".

(** [config.data] *)
Inductive RequestData : Type :=
| DataNone
| DataFormData (fd : FormData)
| DataOther (v : JsValue).

(** [config.data instanceof FormData] *)
Definition instanceof_FormData (d : RequestData) : bool :=
  match d with DataFormData _ => true | _ => false end.

(** The merged request configuration; [headers] is the header bag, keyed
    by the property names under which the entries are stored. *)
Record AxiosRequestConfig : Type := mkConfig {
  baseURL : jsstring;
  timeout : Z;
  method : option jsstring;
  url : option jsstring;
  data : RequestData;
  headers : gmap jsstring jsstring;
}.

Definition set_headers (h : gmap jsstring jsstring) (c : AxiosRequestConfig)
  : AxiosRequestConfig :=
  mkConfig (baseURL c) (timeout c) (method c) (url c) (data c) h.

Record AxiosResponse : Type := mkResponse {
  response_status : Z;
  response_data : JsValue;
}.

(** The transport's own failure object. *)
Record AxiosError : Type := mkAxiosError {
  error_message : jsstring;
  error_response : option AxiosResponse;
}.

Record NormalizedError : Type := mkNormalized {
  status : JsValue;
  message : JsValue;
}.

(** What a promise of this layer can be rejected with. *)
Inductive Thrown : Type :=
| Native (e : AxiosError)
| Normalized (n : NormalizedError).

Inductive Settled (A : Type) : Type :=
| Fulfilled (a : A)
| Rejected (reason : Thrown).
Arguments Fulfilled {A} a.
Arguments Rejected {A} reason.

Inductive ConsoleEntry : Type :=
| LogRequest (method : option jsstring) (url : option jsstring)
| LogError (n : NormalizedError).

(** The mutable state an operation touches: [localStorage], the console,
    and the requests handed to the transport so far. *)
Record World : Type := mkWorld {
  localStorage : gmap jsstring jsstring;
  console : list ConsoleEntry;
  sent : list AxiosRequestConfig;
}.

(** What the surroundings supply to one call: the build-time environment,
    the draws of the random and time sources, and the transport's answer to
    a request. *)
Record Platform : Type := mkPlatform {
  DEV : bool;
  VITE_API_BASE_URL : option jsstring;
  toUpperCase : jsstring → jsstring;
  adapter : AxiosRequestConfig → AxiosError + AxiosResponse;
  crypto_randomUUID : option N;
  Date_now : Z;
  Math_random_toString36 : jsstring;
}.

(** State passing over [World]. *)
Definition M (A : Type) : Type := World → A * World.

Definition ret {A} (a : A) : M A := λ w, (a, w).

Definition bind {A B} (m : M A) (k : A → M B) : M B :=
  λ w, let (a, w') := m w in k a w'.

Notation "'let*' x ':=' m 'in' k" := (bind m (λ x, k))
  (at level 10, x binder, m at level 100, k at level 200).

Definition console_log (e : ConsoleEntry) : M unit :=
  λ w, (tt, mkWorld (localStorage w) (console w ++ [e]) (sent w)).

Definition when (b : bool) (m : M unit) : M unit :=
  if b then m else ret tt.

Abbreviation Promise A := (M (Settled A)).

Definition resolve {A} (a : A) : Promise A := ret (Fulfilled a).
Definition reject {A} (reason : Thrown) : Promise A := ret (Rejected reason).

(** [p.then(onFulfilled, onRejected)]; a missing [onRejected] lets the
    rejection through. *)
Definition then_ {A B} (p : Promise A) (onFulfilled : A → Promise B)
    (onRejected : option (Thrown → Promise B)) : Promise B :=
  let* r := p in
  match r with
  | Fulfilled a => onFulfilled a
  | Rejected reason =>
      match onRejected with
      | Some h => h reason
      | None => reject reason
      end
  end.

(** Request interceptor, lines 13-27. *)
Definition request_onFulfilled (p : Platform) (config : AxiosRequestConfig)
  : Promise AxiosRequestConfig :=
  let config :=
    if instanceof_FormData (data config)
    then set_headers (delete CONTENT_TYPE (headers config)) config
    else config in
  let* _ := when (DEV p)
    (console_log (LogRequest (toUpperCase p <$> method config) (url config))) in
  resolve config.

(** Line 28. *)
Definition request_onRejected (error : Thrown) : Promise AxiosRequestConfig :=
  reject error.

(** Line 32. *)
Definition response_onFulfilled (response : AxiosResponse)
  : Promise AxiosResponse :=
  resolve response.

(** [error.response] and [error.message] read off whatever was thrown. *)
Definition thrown_response (error : Thrown) : option AxiosResponse :=
  match error with
  | Native e => error_response e
  | Normalized _ => None
  end.

Definition thrown_message (error : Thrown) : JsValue :=
  match error with
  | Native e => JString (error_message e)
  | Normalized n => message n
  end.

(** [x?.f] on an optional record. *)
Definition opt_chain {A} (x : option A) (f : A → JsValue) : JsValue :=
  match x with
  | Some a => f a
  | None => JUndefined
  end.

Definition DETAIL : jsstring := lit "detail".
Definition UNKNOWN_API_ERROR : jsstring := lit "Unknown API error".

(** Lines 34-40. *)
Definition normalizedError (error : Thrown) : NormalizedError :=
  {| status :=
       js_or (opt_chain (thrown_response error) (λ r, JNumber (response_status r)))
             (JNumber 500);
     message :=
       js_or (optional_get (opt_chain (thrown_response error) response_data) DETAIL)
             (js_or (thrown_message error) (JString UNKNOWN_API_ERROR)) |}.

(** Response interceptor, failure path, lines 33-51. *)
Definition response_onRejected (p : Platform) (error : Thrown)
  : Promise AxiosResponse :=
  let normalizedError := normalizedError error in
  let* _ := when (DEV p) (console_log (LogError normalizedError)) in
  reject (Normalized normalizedError).

(** The transport proper: the request leaves, the answer comes back. *)
Definition dispatchRequest (p : Platform) (config : AxiosRequestConfig)
  : Promise AxiosResponse :=
  λ w,
    (match adapter p config with
     | inl e => Rejected (Native e)
     | inr r => Fulfilled r
     end,
     mkWorld (localStorage w) (console w) (sent w ++ [config])).

(** [apiClient.request(config)]: axios' promise chain around the transport
    with the one request and the one response interceptor registered. *)
Definition request (p : Platform) (config : AxiosRequestConfig)
  : Promise AxiosResponse :=
  then_
    (then_
       (then_ (resolve config)
              (request_onFulfilled p) (Some request_onRejected))
       (dispatchRequest p) None)
    response_onFulfilled (Some (response_onRejected p)).

(** [apiClient.post(url, data, { headers })] with the instance defaults of
    lines 6-9. *)
Definition post (p : Platform) (url : jsstring) (data : RequestData)
    (headers : gmap jsstring jsstring) : Promise AxiosResponse :=
  request p
    {| baseURL := API_BASE_URL (VITE_API_BASE_URL p);
       timeout := 60000;
       method := Some (lit "post");
       url := Some url;
       data := data;
       headers := headers |}.

End Client.
Import Client.

(** ** The request builders *)

Module Api.

(** The values of a [FormDataPayload]: [string | Blob | undefined], and
    [null], which the builder tests for as well. *)
Inductive PayloadValue : Type :=
| PUndefined
| PNull
| PString (s : jsstring)
| PBlob (f : File).

(** A payload object literal, as [Object.entries] lists it: own properties
    in insertion order. *)
Abbreviation FormDataPayload := (list (jsstring * PayloadValue)).

(** [obj[key] = value] *)
Fixpoint set_property (obj : FormDataPayload) (key : jsstring)
    (value : PayloadValue) : FormDataPayload :=
  match obj with
  | [] => [(key, value)]
  | (k, v) :: rest =>
      if decide (k = key) then (k, value) :: rest
      else (k, v) :: set_property rest key value
  end.

Definition SESSION_KEY : jsstring := lit "agrigpt_session_id".
Definition SESSION_ID : jsstring := lit "session_id".
Definition QUERY : jsstring := lit "query".
Definition FILE : jsstring := lit "file".

(** The right-hand side of line 155. *)
Definition fresh_sid (p : Platform) : jsstring :=
  match crypto_randomUUID p with
  | Some bits => randomUUID bits
  | None => toString36 (Date_now p) ++ substr2 (Math_random_toString36 p)
  end.

Definition persist_fresh_sid (p : Platform) : M jsstring :=
  λ w,
    let sid := fresh_sid p in
    (sid, mkWorld (setItem (localStorage w) SESSION_KEY sid) (console w) (sent w)).

(** Lines 151-159: [!sid] holds of [null] and of the empty string. *)
Definition getSessionId (p : Platform) : M jsstring :=
  λ w,
    match getItem (localStorage w) SESSION_KEY with
    | Some sid => if truthy_string sid then (sid, w) else persist_fresh_sid p w
    | None => persist_fresh_sid p w
    end.

(** The body of the [forEach] callback, lines 165-169. *)
Definition append_defined (fd : FormData) (entry : jsstring * PayloadValue)
  : FormData :=
  match entry.2 with
  | PUndefined | PNull => fd
  | PString s => append fd entry.1 (EntryString s)
  | PBlob f => append fd entry.1 (EntryFile f)
  end.

(** Lines 161-171. *)
Definition buildFormData (p : Platform) (payload : FormDataPayload)
  : M FormData :=
  let fd : FormData := [] in
  let* sid := getSessionId p in
  let fd := append fd SESSION_ID (EntryString sid) in
  ret (fold_left append_defined payload fd).

Definition MULTIPART : gmap jsstring jsstring :=
  {[ CONTENT_TYPE := lit "multipart/form-data" ]}.

(** Lines 173-181; a rejected [await] rejects the result. *)
Definition postFormData (p : Platform) (url : jsstring) (formData : FormData)
  : Promise JsValue :=
  then_ (post p url (DataFormData formData) MULTIPART)
        (λ res, resolve (response_data res)) None.

(** Lines 184-187. *)
Definition askText (p : Platform) (query : jsstring) : Promise JsValue :=
  let* payload := buildFormData p [(QUERY, PString (trim query))] in
  postFormData p (lit "/ask/text") payload.

(** Lines 190-191. *)
Definition askImage (p : Platform) (image : File) : Promise JsValue :=
  let* payload := buildFormData p [(FILE, PBlob image)] in
  postFormData p (lit "/ask/image") payload.

(** Lines 194-208; an omitted [image] is [None], and a [File] is truthy. *)
Definition askChat (p : Platform) (query : jsstring) (image : option File)
  : Promise JsValue :=
  let payloadObj : FormDataPayload := [(QUERY, PString (trim query))] in
  let payloadObj :=
    match image with
    | Some f => set_property payloadObj FILE (PBlob f)
    | None => payloadObj
    end in
  let* payload := buildFormData p payloadObj in
  postFormData p (lit "/ask/chat") payload.

End Api.
Import Api.

(** ** The specification's reading of error normalisation

    Selection by presence, as the prose has it: the status of the response
    when there is a response, the [detail] of the body when the body has
    one, the failure's description when it has one. *)

Module Spec.

Definition spec_status (e : AxiosError) : JsValue :=
  match error_response e with
  | Some r => JNumber (response_status r)
  | None => JNumber 500
  end.

Definition body_detail (e : AxiosError) : option JsValue :=
  match error_response e with
  | Some r =>
      match response_data r with
      | JObject props => own_property props DETAIL
      | _ => None
      end
  | None => None
  end.

Definition spec_message (e : AxiosError) : JsValue :=
  match body_detail e with
  | Some d => d
  | None =>
      match error_message e with
      | [] => JString UNKNOWN_API_ERROR
      | _ :: _ => JString (error_message e)
      end
  end.

Definition spec_normalized (e : AxiosError) : NormalizedError :=
  {| status := spec_status e; message := spec_message e |}.

(** A payload property that is there: what [buildFormData] appends for
    it; [None] for a property whose value is absent. *)
Definition defined_entry (e : jsstring * PayloadValue)
  : option (jsstring * FormDataEntryValue) :=
  match e.2 with
  | PString s => Some (e.1, EntryString s)
  | PBlob f => Some (e.1, EntryFile f)
  | PUndefined | PNull => None
  end.

End Spec.
Import Spec.

(** ** Callers of the builders *)

Module Callers.

(** A caller's choice among the three exported operations. *)
Inductive Operation : Type :=
| Text (query : jsstring)
| Image (image : File)
| Chat (query : jsstring) (image : option File).

Definition perform (p : Platform) (op : Operation) : Promise JsValue :=
  match op with
  | Text query => askText p query
  | Image image => askImage p image
  | Chat query image => askChat p query image
  end.

(** The path each operation posts to (lines 186, 191, 207). *)
Definition endpoint (op : Operation) : jsstring :=
  match op with
  | Text _ => lit "/ask/text"
  | Image _ => lit "/ask/image"
  | Chat _ _ => lit "/ask/chat"
  end.

(** Operations awaited one after the other, each with the surroundings of
    its own moment; the world they leave. *)
Fixpoint perform_all (steps : list (Platform * Operation)) (w : World) : World :=
  match steps with
  | [] => w
  | (p, op) :: rest => perform_all rest (perform p op w).2
  end.

(** The [session_id] values a request carries. *)
Definition session_ids (c : AxiosRequestConfig) : list FormDataEntryValue :=
  match data c with
  | DataFormData fd => getAll fd SESSION_ID
  | _ => []
  end.

End Callers.
Import Callers.

(** ** WeatherHeader.tsx, lines 14-132: the weather strip *)

Module Weather.

Definition BACKEND_URL : jsstring := lit "http://localhost:8000".

Definition ERROR : jsstring := lit "error".
Definition CONDITION : jsstring := lit "condition".
Definition LOCATION : jsstring := lit "location".
Definition TEMP : jsstring := lit "temp".
Definition HUMIDITY : jsstring := lit "humidity".
Definition WIND : jsstring := lit "wind".

(** The icons of lines 48-53. *)
Inductive Icon : Type := Sun | Cloud | CloudRain.

(** The two [useState] cells (the clock as milliseconds since the epoch,
    the weather as whatever [res.json()] gave) and the warnings written to
    the console. *)
Record HeaderState : Type := mkHeader {
  currentTime : Z;
  weather : JsValue;
  warnings : list jsstring;
}.

(** Lines 25-26 at mount. *)
Definition mount (now : Z) : HeaderState :=
  {| currentTime := now; weather := JNull; warnings := [] |}.

(** What the callbacks registered in the effect (lines 28-44) are called
    with: the interval firing at [now]; the position callback having
    fetched a response of some status whose body decodes to [data]; the
    same callback failing in [fetch] or in [res.json()]; the position
    being refused. *)
Inductive Event : Type :=
| Tick (now : Z)
| Fetched (http_status : Z) (data : JsValue)
| FetchFailed
| Denied.

(** Line 38: [if (!data?.error) setWeather(data)]. *)
Definition on_data (data : JsValue) (s : HeaderState) : HeaderState :=
  if negb (truthy (optional_get data ERROR))
  then mkHeader (currentTime s) data (warnings s)
  else s.

Definition step (s : HeaderState) (ev : Event) : HeaderState :=
  match ev with
  | Tick now => mkHeader now (weather s) (warnings s)
  | Fetched _ data => on_data data s
  | FetchFailed => s
  | Denied =>
      mkHeader (currentTime s) (weather s)
               (warnings s ++ [lit "Location permission denied"])
  end.

Definition run (evs : list Event) (s : HeaderState) : HeaderState :=
  fold_left step evs s.

(** Lines 46-55: a [switch] (strict equality) on [weather?.condition]. *)
Definition getWeatherIcon (weather : JsValue) : Icon :=
  match optional_get weather CONDITION with
  | JString c =>
      if decide (c = lit "cloudy") then Cloud
      else if decide (c = lit "rainy") then CloudRain
      else Sun
  | _ => Sun
  end.

(** What is rendered: the loading skeleton, or the strip with the values
    it interpolates (the date before formatting). *)
Inductive View : Type :=
| Skeleton
| Strip (location : JsValue) (date : Z) (icon : Icon)
        (temp humidity wind : JsValue).

(** Lines 60-131. *)
Definition render (s : HeaderState) : View :=
  if negb (truthy (weather s)) then Skeleton
  else Strip (optional_get (weather s) LOCATION)
             (currentTime s)
             (getWeatherIcon (weather s))
             (optional_get (weather s) TEMP)
             (optional_get (weather s) HUMIDITY)
             (optional_get (weather s) WIND).

(** The bodies line 38 lets through, in order of arrival. *)
Definition accepted (evs : list Event) : list JsValue :=
  omap (λ ev, match ev with
              | Fetched _ data =>
                  if truthy (optional_get data ERROR) then None else Some data
              | _ => None
              end) evs.

(** The instants at which the interval fired. *)
Definition ticks (evs : list Event) : list Z :=
  omap (λ ev, match ev with Tick now => Some now | _ => None end) evs.

End Weather.
Import Weather.

(** ** Sample surroundings *)

Module Examples.

Definition ok_body : JsValue :=
  JObject [(lit "analysis", JString (lit "ok"));
           (lit "request_id", JString (lit "r1"))].

(** A 400 whose body is [{"detail": ""}]. *)
Definition err_empty_detail : AxiosError :=
  {| error_message := lit "Request failed with status code 400";
     error_response :=
       Some {| response_status := 400;
               response_data := JObject [(DETAIL, JString [])] |} |}.

(** A 422 whose body is [{"detail": "bad image"}]. *)
Definition err_bad_image : AxiosError :=
  {| error_message := lit "Request failed with status code 422";
     error_response :=
       Some {| response_status := 422;
               response_data := JObject [(DETAIL, JString (lit "bad image"))] |} |}.

(** A 503 with an empty body. *)
Definition err_unavailable : AxiosError :=
  {| error_message := lit "Request failed with status code 503";
     error_response :=
       Some {| response_status := 503; response_data := JString [] |} |}.

(** A response object whose status reads 0. *)
Definition err_status_zero : AxiosError :=
  {| error_message := lit "Request failed with status code 0";
     error_response :=
       Some {| response_status := 0; response_data := JUndefined |} |}.

(** No response was received. *)
Definition err_network : AxiosError :=
  {| error_message := lit "Network Error"; error_response := None |}.

Definition ascii_upper (s : jsstring) : jsstring :=
  map (λ c, if ((97 <=? c) && (c <=? 122))%N then (c - 32)%N else c) s.

Definition platform_with (adapter : AxiosRequestConfig → AxiosError + AxiosResponse)
    (uuid : option N) : Platform :=
  {| DEV := true;
     VITE_API_BASE_URL := None;
     toUpperCase := ascii_upper;
     adapter := adapter;
     crypto_randomUUID := uuid;
     Date_now := 1700000000000;
     Math_random_toString36 := lit "0.4fzyo82mvyr" |}.

Definition sample_bits : N := 0x123456789abcdef0123456789abcdef0.

(** The backend answers every request with [ok_body]. *)
Definition secure_platform : Platform :=
  platform_with (λ _, inr {| response_status := 200; response_data := ok_body |})
                (Some sample_bits).

(** The same without [crypto.randomUUID]. *)
Definition insecure_platform : Platform :=
  platform_with (λ _, inr {| response_status := 200; response_data := ok_body |})
                None.

(** The backend refuses every request with [{"detail": ""}]. *)
Definition refusing_platform : Platform :=
  platform_with (λ _, inl err_empty_detail) (Some sample_bits).

(** Every request comes back as a response whose status reads 0. *)
Definition zero_status_platform : Platform :=
  platform_with (λ _, inl err_status_zero) (Some sample_bits).

Definition fresh_world : World :=
  {| localStorage := ∅; console := []; sent := [] |}.

Definition returning_world : World :=
  {| localStorage := {[ SESSION_KEY := lit "abc" ]}; console := []; sent := [] |}.

(** The key is there and holds the empty string. *)
Definition blank_sid_world : World :=
  {| localStorage := {[ SESSION_KEY := [] ]}; console := []; sent := [] |}.

Definition leaf_jpg : File :=
  {| file_name := lit "leaf.jpg"; file_type := lit "image/jpeg";
     file_bytes := [255; 216; 255]%N |}.

Definition json_request : AxiosRequestConfig :=
  {| baseURL := DEFAULT_BASE_URL; timeout := 60000;
     method := Some (lit "post"); url := Some (lit "/ask/text");
     data := DataOther (JObject [(QUERY, JString (lit "hi"))]);
     headers := {[ CONTENT_TYPE := lit "application/json" ]} |}.

(** A production build: [import.meta.env.DEV] is false; the backend is
    unreachable. *)
Definition production_platform : Platform :=
  {| DEV := false;
     VITE_API_BASE_URL := Some (lit " https://api.example.org ");
     toUpperCase := ascii_upper;
     adapter := λ _, inl err_network;
     crypto_randomUUID := None;
     Date_now := 1700000000123;
     Math_random_toString36 := lit "0.k3j9" |}.

Definition sunny_body : JsValue :=
  JObject [(LOCATION, JString (lit "Pune")); (TEMP, JNumber 31);
           (CONDITION, JString (lit "sunny")); (HUMIDITY, JNumber 40);
           (WIND, JNumber 12)].

Definition error_body : JsValue :=
  JObject [(ERROR, JString (lit "upstream unavailable"))].

End Examples.
Import Examples.

(** ** Properties of [trim] *)

Section Trim.

Lemma trimStart_whitespace_only (s : jsstring) :
  trimStart s = [] ↔ whitespace_only s = true.
Proof.
  induction s as [|c s IH]; simpl; [done|].
  destruct (is_trimmed_unit c); simpl; [exact IH|].
  split; discriminate.
Qed.

Lemma whitespace_only_rev (s : jsstring) :
  whitespace_only (rev s) = whitespace_only s.
Proof.
  unfold whitespace_only.
  apply eq_true_iff_eq. rewrite !forallb_forall.
  split; intros H x Hx; apply H; [apply in_rev in Hx|apply in_rev]; done.
Qed.

Lemma trimStart_suffix (s : jsstring) :
  ∃ l, s = l ++ trimStart s ∧ whitespace_only l = true.
Proof.
  induction s as [|c s (l & Hl & Hw)]; simpl.
  - by exists [].
  - destruct (is_trimmed_unit c) eqn:Hc.
    + exists (c :: l). simpl. rewrite Hc, Hw. by rewrite <- Hl.
    + by exists [].
Qed.

Lemma trimStart_head (s t : jsstring) (c : N) :
  trimStart s = c :: t → is_trimmed_unit c = false.
Proof.
  induction s as [|d s IH]; simpl; [done|].
  destruct (is_trimmed_unit d) eqn:Hd; [done|].
  intros [= -> _]. done.
Qed.

Lemma trimEnd_prefix (s : jsstring) :
  ∃ r, s = trimEnd s ++ r ∧ whitespace_only r = true.
Proof.
  unfold trimEnd.
  destruct (trimStart_suffix (rev s)) as (l & Hl & Hw).
  exists (rev l). split.
  - rewrite <- rev_app_distr, <- Hl. by rewrite rev_involutive.
  - by rewrite whitespace_only_rev.
Qed.

Lemma trimEnd_last (s t : jsstring) (c : N) :
  trimEnd s = t ++ [c] → is_trimmed_unit c = false.
Proof.
  unfold trimEnd. intros H.
  apply (f_equal (@rev N)) in H.
  rewrite rev_involutive, rev_app_distr in H. simpl in H.
  by apply trimStart_head in H.
Qed.

Lemma trim_whitespace_only (s : jsstring) :
  trim s = [] ↔ whitespace_only s = true.
Proof.
  unfold trim, trimEnd. split.
  - intros H. apply (f_equal (@rev N)) in H.
    rewrite rev_involutive in H. simpl in H.
    apply trimStart_whitespace_only in H.
    rewrite whitespace_only_rev in H.
    destruct (trimStart_suffix s) as (l & Hl & Hw).
    rewrite Hl. unfold whitespace_only in *.
    rewrite forallb_app, Hw. exact H.
  - intros H. apply trimStart_whitespace_only in H. by rewrite H.
Qed.

Lemma trim_spec (s : jsstring) :
  ∃ l r, s = l ++ trim s ++ r
    ∧ whitespace_only l = true ∧ whitespace_only r = true
    ∧ (∀ c t, trim s = c :: t → is_trimmed_unit c = false)
    ∧ (∀ t c, trim s = t ++ [c] → is_trimmed_unit c = false).
Proof.
  destruct (trimStart_suffix s) as (l & Hl & Hwl).
  destruct (trimEnd_prefix (trimStart s)) as (r & Hr & Hwr).
  exists l, r. unfold trim. repeat split; try done.
  - by rewrite <- Hr.
  - intros c t Ht. rewrite Ht in Hr. simpl in Hr.
    by apply trimStart_head in Hr.
  - intros t c. apply trimEnd_last.
Qed.

Example trim_hello : trim (lit "  hello  ") = lit "hello".
Proof. reflexivity. Qed.

Example trim_keeps_inner_space : trim (lit " a b ") = lit "a b".
Proof. reflexivity. Qed.

End Trim.

(** ** The base URL *)

Section BaseUrl.

(** C10: the environment value is trimmed first and the fallback test is
    made on the trimmed string, so an unset, empty or whitespace-only
    value selects ["http://localhost:8000"]; any other value is used
    trimmed. *)
Theorem C10_base_url_trimmed_then_defaulted (env : option jsstring) :
  API_BASE_URL env =
    match env with
    | None => lit "http://localhost:8000"
    | Some s =>
        if whitespace_only s then lit "http://localhost:8000" else trim s
    end
  ∧ API_BASE_URL None = lit "http://localhost:8000"
  ∧ API_BASE_URL (Some []) = lit "http://localhost:8000".
Proof.
  split; [|done].
  destruct env as [s|]; [|done].
  unfold API_BASE_URL. simpl.
  destruct (whitespace_only s) eqn:Hw.
  - apply trim_whitespace_only in Hw. by rewrite Hw.
  - destruct (trim s) eqn:Ht; [|done].
    apply trim_whitespace_only in Ht. congruence.
Qed.

Example base_url_blank :
  API_BASE_URL (Some (lit "   ")) = lit "http://localhost:8000".
Proof. reflexivity. Qed.

Example base_url_padded :
  API_BASE_URL (Some (lit " https://api.example.org  "))
  = lit "https://api.example.org".
Proof. reflexivity. Qed.

End BaseUrl.

(** ** Identifiers the browser hands out *)

Section Identifiers.

Lemma undigit36_digit36 (d : N) : (d < 36)%N → undigit36 (digit36 d) = d.
Proof.
  intros Hd. unfold undigit36, digit36.
  destruct (d <? 10)%N eqn:H10.
  - apply N.ltb_lt in H10.
    destruct (48 + d <? 58)%N eqn:H58; [lia|]. apply N.ltb_ge in H58. lia.
  - apply N.ltb_ge in H10.
    destruct (87 + d <? 58)%N eqn:H58; [|lia]. apply N.ltb_lt in H58. lia.
Qed.

Lemma parse36_app (s t : jsstring) :
  parse36 (s ++ t) = fold_left (λ a c, (36 * a + undigit36 c)%N) t (parse36 s).
Proof. unfold parse36. apply fold_left_app. Qed.

(** The digit loop emits the numeral of [n] in front of [acc] whenever the
    fuel covers the binary size of [n]. *)
Lemma digits36_numeral (fuel : nat) :
  ∀ (n : N) (acc : jsstring),
    (n < 2 ^ N.of_nat fuel)%N →
    ∃ ds, digits36 fuel n acc = ds ++ acc ∧ parse36 ds = n.
Proof.
  induction fuel as [|fuel IH]; intros n acc Hn.
  - exists []. split; [done|]. simpl in Hn. unfold parse36. simpl. lia.
  - simpl. destruct (n / 36 =? 0)%N eqn:Hq.
    + apply N.eqb_eq in Hq.
      exists [digit36 (n mod 36)]. split; [done|].
      unfold parse36. simpl. rewrite undigit36_digit36.
      * pose proof (N.div_mod n 36). lia.
      * apply N.mod_lt. lia.
    + destruct (IH (n / 36)%N (digit36 (n mod 36) :: acc)) as (ds & Hds & Hv).
      * rewrite Nat2N.inj_succ, N.pow_succ_r' in Hn.
        apply N.Div0.div_lt_upper_bound. lia.
      * exists (ds ++ [digit36 (n mod 36)]). split.
        -- rewrite Hds. by rewrite <- app_assoc.
        -- rewrite parse36_app, Hv. simpl. rewrite undigit36_digit36.
           ++ pose proof (N.div_mod n 36). lia.
           ++ apply N.mod_lt. lia.
Qed.

Lemma N_toString36_round_trip (n : N) : parse36 (N_toString36 n) = n.
Proof.
  unfold N_toString36.
  destruct (digits36_numeral (S (N.to_nat (N.log2 n))) n []) as (ds & Hds & Hv).
  - rewrite Nat2N.inj_succ, N2Nat.id.
    destruct n as [|q]; [done|]. apply N.log2_spec. lia.
  - rewrite Hds, app_nil_r. exact Hv.
Qed.

Lemma digits36_nonempty (fuel : nat) (n : N) (acc : jsstring) :
  digits36 (S fuel) n acc ≠ [].
Proof.
  revert n acc. induction fuel as [|fuel IH]; intros n acc; simpl.
  - by destruct (n / 36 =? 0)%N.
  - destruct (n / 36 =? 0)%N; [done|]. apply (IH (n / 36)%N).
Qed.

Lemma toString36_nonempty (z : Z) : toString36 z ≠ [].
Proof.
  destruct z; simpl; [apply digits36_nonempty|apply digits36_nonempty|done].
Qed.

Lemma randomUUID_length (bits : N) : length (randomUUID bits) = 36.
Proof. reflexivity. Qed.

(** The version digit and the dashes sit where RFC 4122 puts them. *)
Lemma randomUUID_shape (bits : N) :
  randomUUID bits !! 14 = Some 52%N
  ∧ (∀ i, i ∈ [8; 13; 18; 23] → randomUUID bits !! i = Some 45%N).
Proof.
  split; [reflexivity|].
  intros i Hi. repeat (apply elem_of_cons in Hi as [->|Hi]; [reflexivity|]).
  by apply elem_of_nil in Hi.
Qed.

Lemma fresh_sid_truthy (p : Platform) : truthy_string (fresh_sid p) = true.
Proof.
  unfold fresh_sid. destruct (crypto_randomUUID p) as [bits|].
  - reflexivity.
  - pose proof (toString36_nonempty (Date_now p)) as H.
    by destruct (toString36 (Date_now p)).
Qed.

Example uuid_of_bits :
  randomUUID 0x123456789abcdef0123456789abcdef0
  = lit "12345678-9abc-4ef0-9234-56789abcdef0".
Proof. reflexivity. Qed.

Example base36_of_timestamp : toString36 1700000000000 = lit "loyw3v28".
Proof. reflexivity. Qed.

End Identifiers.

(** ** The session identity store *)

Section SessionIdentity.

Lemma getSessionId_fresh (p : Platform) (w : World) :
  localStorage w !! SESSION_KEY = None ∨ localStorage w !! SESSION_KEY = Some [] →
  getSessionId p w
  = (fresh_sid p,
     mkWorld (<[SESSION_KEY := fresh_sid p]> (localStorage w)) (console w) (sent w)).
Proof.
  intros H. unfold getSessionId, getItem.
  destruct H as [-> | ->]; reflexivity.
Qed.

Lemma getSessionId_stored (p : Platform) (w : World) (v : jsstring) :
  localStorage w !! SESSION_KEY = Some v → v ≠ [] → getSessionId p w = (v, w).
Proof.
  intros H Hv. unfold getSessionId, getItem. rewrite H.
  by destruct v.
Qed.

(** After any call the key holds the returned, non-empty identifier. *)
Lemma getSessionId_post (p : Platform) (w : World) :
  localStorage (getSessionId p w).2 !! SESSION_KEY = Some (getSessionId p w).1
  ∧ (getSessionId p w).1 ≠ [].
Proof.
  destruct (localStorage w !! SESSION_KEY) as [v|] eqn:Hv.
  - destruct v as [|c v].
    + rewrite getSessionId_fresh by auto. simpl. unfold setItem.
      rewrite lookup_insert_eq. split; [done|].
      pose proof (fresh_sid_truthy p). by destruct (fresh_sid p).
    + by rewrite (getSessionId_stored p w (c :: v)).
  - rewrite getSessionId_fresh by auto. simpl. unfold setItem.
    rewrite lookup_insert_eq. split; [done|].
    pose proof (fresh_sid_truthy p). by destruct (fresh_sid p).
Qed.

(** C5: with nothing stored under ["agrigpt_session_id"], the accessor
    draws a new identifier (the random UUID where [crypto.randomUUID]
    exists, else the base-36 timestamp followed by the base-36 random
    digits), writes it under that key, and returns what it wrote. *)
Theorem C5_absent_sid_generated_and_persisted (p : Platform) (w : World) :
  localStorage w !! lit "agrigpt_session_id" = None →
  ∃ sid,
    sid = match crypto_randomUUID p with
          | Some bits => randomUUID bits
          | None => toString36 (Date_now p) ++ drop 2 (Math_random_toString36 p)
          end
    ∧ getSessionId p w
      = (sid, mkWorld (<[lit "agrigpt_session_id" := sid]> (localStorage w))
                      (console w) (sent w))
    ∧ localStorage (getSessionId p w).2 !! lit "agrigpt_session_id" = Some sid.
Proof.
  intros H. exists (fresh_sid p). split; [done|].
  rewrite getSessionId_fresh by (left; exact H).
  split; [done|]. simpl. apply lookup_insert_eq.
Qed.

Lemma C5_witness :
  localStorage fresh_world !! lit "agrigpt_session_id" = None
  ∧ (getSessionId secure_platform fresh_world).1
    = lit "12345678-9abc-4ef0-9234-56789abcdef0"
  ∧ (getSessionId insecure_platform fresh_world).1
    = lit "loyw3v284fzyo82mvyr".
Proof.
  split; [reflexivity|]. split.
  - destruct (C5_absent_sid_generated_and_persisted secure_platform fresh_world)
      as (sid & Hsid & Hrun & _); [reflexivity|].
    rewrite Hrun, Hsid. reflexivity.
  - destruct (C5_absent_sid_generated_and_persisted insecure_platform fresh_world)
      as (sid & Hsid & Hrun & _); [reflexivity|].
    rewrite Hrun, Hsid. reflexivity.
Defined.

(** C4, as the specification words it, fails where the stored value is the
    empty string: the key is present, yet the accessor replaces it. *)
Lemma C4_counterexample :
  localStorage blank_sid_world !! SESSION_KEY = Some []
  ∧ (getSessionId secure_platform blank_sid_world).1 ≠ [].
Proof. split; [reflexivity|discriminate]. Qed.

(** C4 (amended): a second call made while the entry under the key is what
    the first call left returns the same string and writes nothing; and a
    stored non-empty value is returned unchanged, the store untouched. *)
Theorem C4_sid_stable_across_calls :
  (∀ (p1 p2 : Platform) (w w' : World),
     localStorage w' !! SESSION_KEY
       = localStorage (getSessionId p1 w).2 !! SESSION_KEY →
     getSessionId p2 w' = ((getSessionId p1 w).1, w'))
  ∧ (∀ (p : Platform) (w : World) (v : jsstring),
       localStorage w !! SESSION_KEY = Some v → v ≠ [] →
       getSessionId p w = (v, w)).
Proof.
  split.
  - intros p1 p2 w w' Hkept.
    destruct (getSessionId_post p1 w) as [Hin Hne].
    rewrite Hin in Hkept. by apply getSessionId_stored.
  - intros p w v. apply getSessionId_stored.
Qed.

Lemma C4_witness :
  (getSessionId insecure_platform (getSessionId secure_platform fresh_world).2).1
    = (getSessionId secure_platform fresh_world).1
  ∧ getSessionId secure_platform returning_world = (lit "abc", returning_world).
Proof.
  split.
  - rewrite (proj1 C4_sid_stable_across_calls secure_platform insecure_platform
               fresh_world (getSessionId secure_platform fresh_world).2);
      reflexivity.
  - apply (proj2 C4_sid_stable_across_calls); [reflexivity|discriminate].
Defined.

End SessionIdentity.

(** ** The request gateway: how one request runs *)

Section GatewayRuns.

Lemma when_log_frame (b : bool) (e : ConsoleEntry) (w : World) :
  localStorage (when b (console_log e) w).2 = localStorage w
  ∧ sent (when b (console_log e) w).2 = sent w.
Proof. by destruct b. Qed.

Lemma response_onRejected_run (p : Platform) (error : Thrown) (w : World) :
  response_onRejected p error w
  = (Rejected (Normalized (normalizedError error)),
     (when (DEV p) (console_log (LogError (normalizedError error))) w).2).
Proof.
  unfold response_onRejected, bind, reject, ret.
  by destruct (when (DEV p) _ w) as [[] w'].
Qed.

Lemma request_onFulfilled_run (p : Platform) (config : AxiosRequestConfig)
    (w : World) :
  let c := if instanceof_FormData (data config)
           then set_headers (delete CONTENT_TYPE (headers config)) config
           else config in
  request_onFulfilled p config w
  = (Fulfilled c,
     (when (DEV p)
        (console_log (LogRequest (toUpperCase p <$> method c) (url c))) w).2).
Proof.
  intros c. unfold request_onFulfilled, bind, resolve, ret. fold c.
  by destruct (when (DEV p) _ w) as [[] w'].
Qed.

(** One request, start to finish. *)
Lemma request_run (p : Platform) (config : AxiosRequestConfig) (w : World) :
  let c := if instanceof_FormData (data config)
           then set_headers (delete CONTENT_TYPE (headers config)) config
           else config in
  let w1 := (when (DEV p)
               (console_log (LogRequest (toUpperCase p <$> method c) (url c))) w).2 in
  let w2 := mkWorld (localStorage w1) (console w1) (sent w1 ++ [c]) in
  request p config w
  = match adapter p c with
    | inr r => (Fulfilled r, w2)
    | inl e =>
        (Rejected (Normalized (normalizedError (Native e))),
         (when (DEV p)
            (console_log (LogError (normalizedError (Native e)))) w2).2)
    end.
Proof.
  intros c w1 w2. unfold request, then_ at 1 2 3, bind at 1 2 3.
  unfold resolve at 1, ret at 1.
  rewrite request_onFulfilled_run. fold c w1.
  unfold dispatchRequest. fold w2.
  destruct (adapter p c) as [e|r].
  - apply response_onRejected_run.
  - reflexivity.
Qed.

Lemma request_sent (p : Platform) (config : AxiosRequestConfig) (w : World) :
  sent (request p config w).2
  = sent w ++ [if instanceof_FormData (data config)
               then set_headers (delete CONTENT_TYPE (headers config)) config
               else config]
  ∧ localStorage (request p config w).2 = localStorage w.
Proof.
  rewrite request_run.
  set (c := if instanceof_FormData (data config) then _ else _).
  destruct (adapter p c); simpl;
    rewrite ?(proj1 (when_log_frame _ _ _)), ?(proj2 (when_log_frame _ _ _));
    simpl;
    rewrite ?(proj1 (when_log_frame _ _ _)), ?(proj2 (when_log_frame _ _ _));
    done.
Qed.

Lemma request_outcome (p : Platform) (config : AxiosRequestConfig) (w : World) :
  (request p config w).1
  = match adapter p (if instanceof_FormData (data config)
                     then set_headers (delete CONTENT_TYPE (headers config)) config
                     else config) with
    | inr r => Fulfilled r
    | inl e => Rejected (Normalized (normalizedError (Native e)))
    end.
Proof. rewrite request_run. by destruct (adapter p _). Qed.

Lemma status_by_truthiness (e : AxiosError) :
  status (normalizedError (Native e))
  = JNumber (match error_response e with
             | Some r => if (response_status r =? 0)%Z then 500
                         else response_status r
             | None => 500
             end).
Proof.
  unfold normalizedError, js_or, opt_chain. simpl.
  destruct (error_response e) as [r|]; simpl; [|done].
  by destruct (response_status r =? 0)%Z.
Qed.

Lemma optional_get_detail (e : AxiosError) :
  optional_get (opt_chain (error_response e) response_data) DETAIL
  = default JUndefined (body_detail e).
Proof.
  unfold body_detail, opt_chain.
  destruct (error_response e) as [r|]; [|done].
  by destruct (response_data r).
Qed.

Lemma message_by_truthiness (e : AxiosError) :
  message (normalizedError (Native e))
  = let described :=
      match error_message e with
      | [] => JString (lit "Unknown API error")
      | _ :: _ => JString (error_message e)
      end in
    match body_detail e with
    | Some d => if truthy d then d else described
    | None => described
    end.
Proof.
  unfold normalizedError. simpl. rewrite optional_get_detail.
  unfold js_or. destruct (body_detail e) as [d|]; simpl.
  - destruct (truthy d); [done|]. by destruct (error_message e).
  - by destruct (error_message e).
Qed.

End GatewayRuns.

(** ** The request builders: how one operation runs *)

Section BuilderRuns.

Lemma getSessionId_frame (p : Platform) (w : World) :
  console (getSessionId p w).2 = console w ∧ sent (getSessionId p w).2 = sent w.
Proof.
  unfold getSessionId, persist_fresh_sid.
  destruct (getItem _ _) as [v|]; [destruct (truthy_string v)|]; done.
Qed.

Lemma fold_append_defined (payload : FormDataPayload) (fd : FormData) :
  fold_left append_defined payload fd = fd ++ omap defined_entry payload.
Proof.
  revert fd. induction payload as [|[k v] payload IH]; intros fd; simpl.
  - by rewrite app_nil_r.
  - rewrite IH. unfold append_defined, defined_entry, append. simpl.
    destruct v; simpl; by rewrite <- ?app_assoc.
Qed.

Lemma buildFormData_run (p : Platform) (payload : FormDataPayload) (w : World) :
  buildFormData p payload w
  = ((SESSION_ID, EntryString (getSessionId p w).1) :: omap defined_entry payload,
     (getSessionId p w).2).
Proof.
  unfold buildFormData, bind, ret.
  destruct (getSessionId p w) as [sid w1]. simpl.
  by rewrite fold_append_defined.
Qed.

(** The request [postFormData] puts on the wire. *)
Lemma postFormData_run (p : Platform) (url : jsstring) (fd : FormData)
    (w : World) :
  let c := {| baseURL := API_BASE_URL (VITE_API_BASE_URL p);
              timeout := 60000;
              method := Some (lit "post");
              url := Some url;
              data := DataFormData fd;
              headers := ∅ |} in
  sent (postFormData p url fd w).2 = sent w ++ [c]
  ∧ localStorage (postFormData p url fd w).2 = localStorage w
  ∧ (postFormData p url fd w).1
    = match adapter p c with
      | inr r => Fulfilled (response_data r)
      | inl e => Rejected (Normalized (normalizedError (Native e)))
      end.
Proof.
  intros c. unfold postFormData, then_, bind, post.
  match goal with |- context [request p ?cfg w] => set (cfg0 := cfg) end.
  assert (Hc : (if instanceof_FormData (data cfg0)
                then set_headers (delete CONTENT_TYPE (headers cfg0)) cfg0
                else cfg0) = c).
  { simpl. unfold set_headers, c, MULTIPART. simpl.
    by rewrite delete_singleton_eq. }
  pose proof (request_sent p cfg0 w) as [Hsent Hstore].
  pose proof (request_outcome p cfg0 w) as Hout.
  rewrite Hc in Hsent, Hout.
  destruct (request p cfg0 w) as [[res|reason] w']; simpl in *.
  - repeat split; try done. by destruct (adapter p c) as [e|r]; simplify_eq.
  - repeat split; try done. by destruct (adapter p c) as [e|r]; simplify_eq.
Qed.

Lemma askText_run (p : Platform) (query : jsstring) (w : World) :
  askText p query w
  = postFormData p (lit "/ask/text")
      [(SESSION_ID, EntryString (getSessionId p w).1);
       (QUERY, EntryString (trim query))]
      (getSessionId p w).2.
Proof. unfold askText, bind. by rewrite buildFormData_run. Qed.

Lemma askImage_run (p : Platform) (image : File) (w : World) :
  askImage p image w
  = postFormData p (lit "/ask/image")
      [(SESSION_ID, EntryString (getSessionId p w).1); (FILE, EntryFile image)]
      (getSessionId p w).2.
Proof. unfold askImage, bind. by rewrite buildFormData_run. Qed.

Lemma askChat_run (p : Platform) (query : jsstring) (image : option File)
    (w : World) :
  askChat p query image w
  = postFormData p (lit "/ask/chat")
      ([(SESSION_ID, EntryString (getSessionId p w).1);
        (QUERY, EntryString (trim query))]
       ++ match image with Some f => [(FILE, EntryFile f)] | None => [] end)
      (getSessionId p w).2.
Proof.
  unfold askChat, bind. rewrite buildFormData_run. by destruct image.
Qed.

End BuilderRuns.

(** ** The request gateway: what callers observe *)

Section GatewayClaims.

(** C1, as the specification words it (selection by presence), fails on a
    400 whose body is [{"detail": ""}]: the caller receives the failure's
    description as message, not the empty detail; and on a response whose
    status reads 0: the caller receives status 500. *)
Lemma C1_counterexample :
  (request refusing_platform json_request fresh_world).1
  ≠ Rejected (Normalized (spec_normalized err_empty_detail))
  ∧ (request zero_status_platform json_request fresh_world).1
    ≠ Rejected (Normalized (spec_normalized err_status_zero)).
Proof. split; discriminate. Qed.

Example refused_request_values :
  (request refusing_platform json_request fresh_world).1
  = Rejected (Normalized
      {| status := JNumber 400;
         message := JString (lit "Request failed with status code 400") |})
  ∧ spec_normalized err_empty_detail
    = {| status := JNumber 400; message := JString [] |}.
Proof. split; reflexivity. Qed.

Example zero_status_request_values :
  (request zero_status_platform json_request fresh_world).1
  = Rejected (Normalized
      {| status := JNumber 500;
         message := JString (lit "Request failed with status code 0") |})
  ∧ spec_normalized err_status_zero
    = {| status := JNumber 0;
         message := JString (lit "Request failed with status code 0") |}.
Proof. split; reflexivity. Qed.

(** C1 (amended): whatever the transport fails with, the caller's promise
    is rejected with the normalized record and never with the transport's
    own error.  Its status is the response's status code when there is a
    response whose status is non-zero, else 500; its message is the body's
    [detail] when that is truthy, else the failure's description when that
    is non-empty, else ["Unknown API error"]. *)
Theorem C1_failures_normalized_by_truthiness (p : Platform)
    (config : AxiosRequestConfig) (w : World) :
  (∃ c, sent (request p config w).2 = sent w ++ [c]
     ∧ match adapter p c with
       | inr r => (request p config w).1 = Fulfilled r
       | inl e =>
           ∃ n, (request p config w).1 = Rejected (Normalized n)
             ∧ status n
               = JNumber (match error_response e with
                          | Some r => if (response_status r =? 0)%Z then 500
                                      else response_status r
                          | None => 500
                          end)
             ∧ message n
               = let described :=
                   match error_message e with
                   | [] => JString (lit "Unknown API error")
                   | _ :: _ => JString (error_message e)
                   end in
                 match body_detail e with
                 | Some d => if truthy d then d else described
                 | None => described
                 end
       end)
  ∧ (∀ e, (request p config w).1 ≠ Rejected (Native e))
  ∧ (∀ url fd e, (postFormData p url fd w).1 ≠ Rejected (Native e)).
Proof.
  split; [|split].
  - eexists. split; [apply request_sent|].
    rewrite request_outcome.
    destruct (adapter p _) as [e|r]; [|done].
    exists (normalizedError (Native e)).
    split; [done|].
    split; [apply status_by_truthiness|apply message_by_truthiness].
  - intros e. rewrite request_outcome. by destruct (adapter p _).
  - intros url fd e.
    destruct (postFormData_run p url fd w) as (_ & _ & ->).
    by destruct (adapter p _).
Qed.

Lemma C1_witness :
  ∃ n, (request refusing_platform json_request fresh_world).1
       = Rejected (Normalized n)
    ∧ status n = JNumber 400
    ∧ message n = JString (lit "Request failed with status code 400").
Proof.
  destruct (C1_failures_normalized_by_truthiness refusing_platform json_request
              fresh_world) as ((c & _ & n & Hn & Hstatus & Hmessage) & _).
  exists n. split; [exact Hn|]. split; [exact Hstatus|exact Hmessage].
Defined.

(** The specification's three sample failures. *)
Example normalized_network_failure :
  normalizedError (Native err_network)
  = {| status := JNumber 500; message := JString (lit "Network Error") |}.
Proof. reflexivity. Qed.

Example normalized_bad_image :
  normalizedError (Native err_bad_image)
  = {| status := JNumber 422; message := JString (lit "bad image") |}.
Proof. reflexivity. Qed.

Example normalized_unavailable :
  normalizedError (Native err_unavailable)
  = {| status := JNumber 503;
       message := JString (lit "Request failed with status code 503") |}.
Proof. reflexivity. Qed.

(** C9: the failure path selects by truthiness.  A [detail] that is there
    but falsy is passed over, and the message is the failure's description
    (or, that being empty too, the fixed string); a response whose status
    is 0 yields status 500. *)
Theorem C9_selection_by_truthiness (p : Platform) (e : AxiosError)
    (r : AxiosResponse) (w : World) :
  error_response e = Some r →
  ∃ n, (response_onRejected p (Native e) w).1 = Rejected (Normalized n)
    ∧ (∀ d, body_detail e = Some d → truthy d = false →
         message n = match error_message e with
                     | [] => JString (lit "Unknown API error")
                     | _ :: _ => JString (error_message e)
                     end)
    ∧ (response_status r = 0%Z → status n = JNumber 500).
Proof.
  intros Hr. exists (normalizedError (Native e)).
  rewrite response_onRejected_run. split; [done|]. split.
  - intros d Hd Hfalsy. rewrite message_by_truthiness, Hd. simpl.
    by rewrite Hfalsy.
  - intros H0. rewrite status_by_truthiness, Hr, H0. done.
Qed.

Lemma C9_witness :
  (∃ n, (response_onRejected secure_platform (Native err_empty_detail)
           fresh_world).1 = Rejected (Normalized n)
      ∧ message n = JString (lit "Request failed with status code 400"))
  ∧ (∃ n, (response_onRejected secure_platform (Native err_status_zero)
             fresh_world).1 = Rejected (Normalized n)
        ∧ status n = JNumber 500).
Proof.
  split.
  - destruct (C9_selection_by_truthiness secure_platform err_empty_detail
                {| response_status := 400;
                   response_data := JObject [(DETAIL, JString [])] |}
                fresh_world eq_refl) as (n & Hn & Hmsg & _).
    exists n. split; [exact Hn|].
    apply (Hmsg (JString [])); reflexivity.
  - destruct (C9_selection_by_truthiness secure_platform err_status_zero
                {| response_status := 0; response_data := JUndefined |}
                fresh_world eq_refl) as (n & Hn & _ & Hst).
    exists n. split; [exact Hn|]. apply Hst. reflexivity.
Defined.

(** C2: on a [FormData] body the request interceptor deletes the
    ["Content-Type"] entry of the header bag and touches nothing else, so
    the request handed to the transport has no such entry whatever the
    caller had put there; on any other body the request goes out as it
    came.  [postFormData] does set the entry, and its request leaves
    without it. *)
Theorem C2_multipart_content_type_removed (p : Platform)
    (config : AxiosRequestConfig) (w : World) :
  (∃ c, (request_onFulfilled p config w).1 = Fulfilled c
     ∧ sent (request p config w).2 = sent w ++ [c]
     ∧ (if instanceof_FormData (data config)
        then headers c !! lit "Content-Type" = None
             ∧ headers c = delete (lit "Content-Type") (headers config)
             ∧ set_headers (headers config) c = config
        else c = config))
  ∧ (∀ (url : jsstring) (fd : FormData),
       MULTIPART !! lit "Content-Type" = Some (lit "multipart/form-data")
       ∧ ∃ c, sent (postFormData p url fd w).2 = sent w ++ [c]
           ∧ data c = DataFormData fd
           ∧ headers c !! lit "Content-Type" = None).
Proof.
  split.
  - eexists. rewrite request_onFulfilled_run. split; [done|].
    split; [apply request_sent|].
    destruct (instanceof_FormData (data config)); [|done].
    simpl. split; [apply lookup_delete_eq|]. split; [done|].
    by destruct config.
  - intros url fd. split; [reflexivity|].
    destruct (postFormData_run p url fd w) as (Hsent & _ & _).
    eexists. split; [exact Hsent|]. done.
Qed.

Example json_request_untouched :
  sent (request secure_platform json_request fresh_world).2 = [json_request].
Proof. reflexivity. Qed.

(** C8: the success path hands the response on untouched, and a builder
    resolves to the decoded body of the transport's response. *)
Theorem C8_success_passes_through (p : Platform) (query : jsstring)
    (w : World) :
  (∀ r w0, response_onFulfilled r w0 = (Fulfilled r, w0))
  ∧ (∀ config, ∃ c, sent (request p config w).2 = sent w ++ [c]
       ∧ ∀ r, adapter p c = inr r → (request p config w).1 = Fulfilled r)
  ∧ (∀ url fd, ∃ c, sent (postFormData p url fd w).2 = sent w ++ [c]
       ∧ ∀ r, adapter p c = inr r →
              (postFormData p url fd w).1 = Fulfilled (response_data r))
  ∧ (∃ c, sent (askText p query w).2 = sent w ++ [c]
       ∧ ∀ r, adapter p c = inr r →
              (askText p query w).1 = Fulfilled (response_data r)).
Proof.
  split; [done|]. split; [|split].
  - intros config. eexists. split; [apply request_sent|].
    intros r Hr. rewrite request_outcome. by rewrite Hr.
  - intros url fd.
    destruct (postFormData_run p url fd w) as (Hsent & _ & Hout).
    eexists. split; [exact Hsent|].
    intros r Hr. rewrite Hout. by rewrite Hr.
  - rewrite askText_run.
    destruct (postFormData_run p (lit "/ask/text")
                [(SESSION_ID, EntryString (getSessionId p w).1);
                 (QUERY, EntryString (trim query))]
                (getSessionId p w).2) as (Hsent & _ & Hout).
    rewrite (proj2 (getSessionId_frame p w)) in Hsent.
    eexists. split; [exact Hsent|].
    intros r Hr. rewrite Hout. by rewrite Hr.
Qed.

Lemma C8_witness :
  (askText secure_platform (lit "hi") fresh_world).1
  = Fulfilled (JObject [(lit "analysis", JString (lit "ok"));
                        (lit "request_id", JString (lit "r1"))]).
Proof.
  destruct (C8_success_passes_through secure_platform (lit "hi") fresh_world)
    as (_ & _ & _ & c & _ & Hbody).
  exact (Hbody {| response_status := 200; response_data := ok_body |} eq_refl).
Defined.

End GatewayClaims.

(** ** The request builders: what is submitted *)

Section BuilderClaims.

(** C6: every operation submits a form whose first entry is [session_id],
    holding the identifier the session store returned (and now holds),
    followed by the operation's own fields; [buildFormData] appends a
    payload property exactly when its value is neither [undefined] nor
    [null]. *)
Theorem C6_payload_session_id_and_defined_fields (p : Platform) (w : World) :
  let sid := (getSessionId p w).1 in
  (∀ payload,
     (buildFormData p payload w).1
     = (lit "session_id", EntryString sid) :: omap defined_entry payload)
  ∧ (∀ k, defined_entry (k, PUndefined) = None
        ∧ defined_entry (k, PNull) = None
        ∧ (∀ s, defined_entry (k, PString s) = Some (k, EntryString s))
        ∧ (∀ f, defined_entry (k, PBlob f) = Some (k, EntryFile f)))
  ∧ (∀ query, ∃ c,
       sent (askText p query w).2 = sent w ++ [c]
       ∧ data c = DataFormData [(lit "session_id", EntryString sid);
                                (lit "query", EntryString (trim query))]
       ∧ localStorage (askText p query w).2 !! SESSION_KEY = Some sid)
  ∧ (∀ image, ∃ c,
       sent (askImage p image w).2 = sent w ++ [c]
       ∧ data c = DataFormData [(lit "session_id", EntryString sid);
                                (lit "file", EntryFile image)]
       ∧ localStorage (askImage p image w).2 !! SESSION_KEY = Some sid)
  ∧ (∀ query image, ∃ c,
       sent (askChat p query image w).2 = sent w ++ [c]
       ∧ data c = DataFormData
                    ([(lit "session_id", EntryString sid);
                      (lit "query", EntryString (trim query))]
                     ++ match image with
                        | Some f => [(lit "file", EntryFile f)]
                        | None => []
                        end)
       ∧ localStorage (askChat p query image w).2 !! SESSION_KEY = Some sid).
Proof.
  intros sid. split; [|split; [|split; [|split]]].
  - intros payload. by rewrite buildFormData_run.
  - done.
  - intros query. rewrite askText_run.
    destruct (postFormData_run p (lit "/ask/text")
                [(SESSION_ID, EntryString (getSessionId p w).1);
                 (QUERY, EntryString (trim query))]
                (getSessionId p w).2) as (Hsent & Hstore & _).
    rewrite (proj2 (getSessionId_frame p w)) in Hsent.
    eexists. split; [exact Hsent|]. split; [done|].
    rewrite Hstore. apply getSessionId_post.
  - intros image. rewrite askImage_run.
    destruct (postFormData_run p (lit "/ask/image")
                [(SESSION_ID, EntryString (getSessionId p w).1);
                 (FILE, EntryFile image)]
                (getSessionId p w).2) as (Hsent & Hstore & _).
    rewrite (proj2 (getSessionId_frame p w)) in Hsent.
    eexists. split; [exact Hsent|]. split; [done|].
    rewrite Hstore. apply getSessionId_post.
  - intros query image. rewrite askChat_run.
    match goal with |- context [postFormData p ?u ?fd ?w1] =>
      destruct (postFormData_run p u fd w1) as (Hsent & Hstore & _) end.
    rewrite (proj2 (getSessionId_frame p w)) in Hsent.
    eexists. split; [exact Hsent|]. split; [done|].
    rewrite Hstore. apply getSessionId_post.
Qed.

Example undefined_field_skipped :
  (buildFormData secure_platform
     [(QUERY, PString (lit "hi")); (FILE, PUndefined)] returning_world).1
  = [(SESSION_ID, EntryString (lit "abc")); (QUERY, EntryString (lit "hi"))].
Proof. reflexivity. Qed.

(** C3: [askChat] posts to ["/ask/chat"] a form whose one [query] entry is
    the query stripped of its leading and trailing white space, and whose
    [file] entry is the image when one was supplied and is missing
    otherwise; [askChat("  hello  ")] submits [query="hello"] and no
    [file]. *)
Theorem C3_askChat_payload (p : Platform) (query : jsstring)
    (image : option File) (w : World) :
  ∃ c fd,
    sent (askChat p query image w).2 = sent w ++ [c]
    ∧ url c = Some (lit "/ask/chat")
    ∧ data c = DataFormData fd
    ∧ getAll fd (lit "query") = [EntryString (trim query)]
    ∧ getAll fd (lit "file")
      = match image with Some f => [EntryFile f] | None => [] end
    ∧ has fd (lit "file") = match image with Some _ => true | None => false end
    ∧ (∃ l r, query = l ++ trim query ++ r
         ∧ whitespace_only l = true ∧ whitespace_only r = true
         ∧ (∀ u t, trim query = u :: t → is_trimmed_unit u = false)
         ∧ (∀ t u, trim query = t ++ [u] → is_trimmed_unit u = false))
    ∧ (query = lit "  hello  " → image = None →
       getAll fd (lit "query") = [EntryString (lit "hello")]
       ∧ has fd (lit "file") = false).
Proof.
  rewrite askChat_run.
  match goal with |- context [postFormData p ?u ?fd ?w1] =>
    destruct (postFormData_run p u fd w1) as (Hsent & _ & _);
    exists (mkConfig (API_BASE_URL (VITE_API_BASE_URL p)) 60000
              (Some (lit "post")) (Some u) (DataFormData fd) ∅), fd end.
  rewrite (proj2 (getSessionId_frame p w)) in Hsent.
  split; [exact Hsent|]. split; [done|]. split; [done|].
  split; [by destruct image|]. split; [by destruct image|].
  split; [by destruct image|]. split; [apply trim_spec|].
  intros -> ->. done.
Qed.

Lemma C3_witness :
  ∃ c fd,
    sent (askChat secure_platform (lit "  hello  ") None fresh_world).2 = [c]
    ∧ data c = DataFormData fd
    ∧ getAll fd (lit "query") = [EntryString (lit "hello")]
    ∧ has fd (lit "file") = false.
Proof.
  destruct (C3_askChat_payload secure_platform (lit "  hello  ") None fresh_world)
    as (c & fd & Hsent & _ & Hdata & _ & _ & _ & _ & Hhello).
  exists c, fd. split; [exact Hsent|]. split; [exact Hdata|].
  exact (Hhello eq_refl eq_refl).
Defined.

Example askChat_with_image :
  (λ c, data c) <$> sent (askChat secure_platform (lit "hi") (Some leaf_jpg)
                            returning_world).2
  = [DataFormData [(SESSION_ID, EntryString (lit "abc"));
                   (QUERY, EntryString (lit "hi"));
                   (FILE, EntryFile leaf_jpg)]].
Proof. reflexivity. Qed.

(** C7: a query of white space only (the empty one included) is not turned
    away: [askText] and [askChat] each put one request on the wire, its
    [query] entry the empty string, and settle as the transport does. *)
Theorem C7_blank_query_still_submitted (p : Platform) (query : jsstring)
    (image : option File) (w : World) :
  whitespace_only query = true →
  (∃ c fd,
     sent (askText p query w).2 = sent w ++ [c]
     ∧ url c = Some (lit "/ask/text")
     ∧ data c = DataFormData fd
     ∧ getAll fd (lit "query") = [EntryString []]
     ∧ (askText p query w).1
       = match adapter p c with
         | inr r => Fulfilled (response_data r)
         | inl e => Rejected (Normalized (normalizedError (Native e)))
         end)
  ∧ (∃ c fd,
       sent (askChat p query image w).2 = sent w ++ [c]
       ∧ url c = Some (lit "/ask/chat")
       ∧ data c = DataFormData fd
       ∧ getAll fd (lit "query") = [EntryString []]
       ∧ (askChat p query image w).1
         = match adapter p c with
           | inr r => Fulfilled (response_data r)
           | inl e => Rejected (Normalized (normalizedError (Native e)))
           end).
Proof.
  intros Hblank. apply trim_whitespace_only in Hblank.
  split.
  - rewrite askText_run, Hblank.
    match goal with |- context [postFormData p ?u ?fd ?w1] =>
      destruct (postFormData_run p u fd w1) as (Hsent & _ & Hout);
      exists (mkConfig (API_BASE_URL (VITE_API_BASE_URL p)) 60000
                (Some (lit "post")) (Some u) (DataFormData fd) ∅), fd end.
    rewrite (proj2 (getSessionId_frame p w)) in Hsent.
    split; [exact Hsent|]. repeat (split; [done|]). exact Hout.
  - rewrite askChat_run, Hblank.
    match goal with |- context [postFormData p ?u ?fd ?w1] =>
      destruct (postFormData_run p u fd w1) as (Hsent & _ & Hout);
      exists (mkConfig (API_BASE_URL (VITE_API_BASE_URL p)) 60000
                (Some (lit "post")) (Some u) (DataFormData fd) ∅), fd end.
    rewrite (proj2 (getSessionId_frame p w)) in Hsent.
    split; [exact Hsent|]. split; [done|]. split; [done|].
    split; [by destruct image|]. exact Hout.
Qed.

Lemma C7_witness :
  whitespace_only (lit "   ") = true
  ∧ whitespace_only [] = true
  ∧ (askText secure_platform (lit "   ") fresh_world).1 = Fulfilled ok_body
  ∧ (askChat secure_platform [] None fresh_world).1 = Fulfilled ok_body.
Proof.
  split; [reflexivity|]. split; [reflexivity|]. split.
  - destruct (C7_blank_query_still_submitted secure_platform (lit "   ") None
                fresh_world eq_refl) as ((c & fd & _ & _ & _ & _ & Hout) & _).
    exact Hout.
  - destruct (C7_blank_query_still_submitted secure_platform [] None
                fresh_world eq_refl) as (_ & (c & fd & _ & _ & _ & _ & Hout)).
    exact Hout.
Defined.

End BuilderClaims.

(** ** More on trimming, and what it means for the base URL and the query *)

Section TrimMore.

Lemma whitespace_only_head (l : jsstring) (c : N) (t : jsstring) :
  whitespace_only l = true → l = c :: t → is_trimmed_unit c = true.
Proof. intros Hw ->. simpl in Hw. by apply andb_prop in Hw as [? _]. Qed.

Lemma whitespace_only_last (r t : jsstring) (c : N) :
  whitespace_only r = true → r = t ++ [c] → is_trimmed_unit c = true.
Proof.
  intros Hw ->. unfold whitespace_only in Hw.
  rewrite forallb_app in Hw. simpl in Hw.
  apply andb_prop in Hw as [_ Hc]. by apply andb_prop in Hc as [? _].
Qed.

(** A string that neither begins nor ends with a stripped unit is left as
    it is. *)
Lemma trim_fixed (s : jsstring) :
  (∀ c t, s = c :: t → is_trimmed_unit c = false) →
  (∀ t c, s = t ++ [c] → is_trimmed_unit c = false) →
  trim s = s.
Proof.
  intros Hhead Hlast.
  destruct (trim_spec s) as (l & r & Hs & Hl & Hr & _ & _).
  assert (l = []) as ->.
  { destruct l as [|c l]; [done|].
    pose proof (Hhead c (l ++ trim s ++ r)) as H. simpl in Hs.
    specialize (H Hs). simpl in Hl. by rewrite H in Hl. }
  assert (r = []) as ->.
  { destruct (rev r) as [|c r'] eqn:Hrev.
    - apply (f_equal (@rev N)) in Hrev. by rewrite rev_involutive in Hrev.
    - apply (f_equal (@rev N)) in Hrev. rewrite rev_involutive in Hrev.
      simpl in Hrev.
      pose proof (whitespace_only_last r (rev r') c Hr Hrev) as Hc.
      rewrite Hrev in Hs. simpl in Hs. rewrite app_assoc in Hs.
      by rewrite (Hlast _ _ Hs) in Hc. }
  simpl in Hs. by rewrite app_nil_r in Hs.
Qed.

Lemma trim_idempotent (s : jsstring) : trim (trim s) = trim s.
Proof.
  destruct (trim_spec s) as (l & r & _ & _ & _ & Hhead & Hlast).
  by apply trim_fixed.
Qed.

Lemma trimStart_pad (l s : jsstring) :
  whitespace_only l = true → trimStart (l ++ s) = trimStart s.
Proof.
  induction l as [|c l IH]; simpl; [done|].
  intros H. apply andb_prop in H as [Hc Hl]. rewrite Hc. by apply IH.
Qed.

Lemma trimEnd_pad (s r : jsstring) :
  whitespace_only r = true → trimEnd (s ++ r) = trimEnd s.
Proof.
  intros Hr. unfold trimEnd. rewrite rev_app_distr, trimStart_pad; [done|].
  by rewrite whitespace_only_rev.
Qed.

Lemma trimStart_app (s r : jsstring) :
  trimStart s ≠ [] → trimStart (s ++ r) = trimStart s ++ r.
Proof.
  induction s as [|c s IH]; simpl; [done|].
  destruct (is_trimmed_unit c); [exact IH|done].
Qed.

(** Padding with white space on either side does not change what [trim]
    gives. *)
Lemma trim_pad (l s r : jsstring) :
  whitespace_only l = true → whitespace_only r = true →
  trim (l ++ s ++ r) = trim s.
Proof.
  intros Hl Hr. unfold trim. rewrite trimStart_pad by done.
  destruct (trimStart s) as [|c t] eqn:Hs.
  - apply trimStart_whitespace_only in Hs.
    assert (Hsr : whitespace_only (s ++ r) = true).
    { unfold whitespace_only in *. by rewrite forallb_app, Hs, Hr. }
    apply trimStart_whitespace_only in Hsr. by rewrite Hsr.
  - rewrite trimStart_app by (rewrite Hs; done).
    rewrite Hs. by apply trimEnd_pad.
Qed.

(** X1: whatever the environment holds, the base URL the gateway is built
    with is non-empty and neither begins nor ends with white space; and
    feeding it back as the environment value gives it again. *)
Theorem X1_base_url_well_formed (env : option jsstring) :
  API_BASE_URL env ≠ []
  ∧ (∀ c t, API_BASE_URL env = c :: t → is_trimmed_unit c = false)
  ∧ (∀ t c, API_BASE_URL env = t ++ [c] → is_trimmed_unit c = false)
  ∧ API_BASE_URL (Some (API_BASE_URL env)) = API_BASE_URL env.
Proof.
  assert (Hdefault :
    (∀ c t, DEFAULT_BASE_URL = c :: t → is_trimmed_unit c = false)
    ∧ (∀ t c, DEFAULT_BASE_URL = t ++ [c] → is_trimmed_unit c = false)).
  { split.
    - intros c t [= <- _]. reflexivity.
    - intros t c H. apply (f_equal (@rev N)) in H.
      rewrite rev_app_distr in H. simpl in H.
      vm_compute in H. by injection H as <- _. }
  assert (Hshape :
    API_BASE_URL env ≠ []
    ∧ (∀ c t, API_BASE_URL env = c :: t → is_trimmed_unit c = false)
    ∧ (∀ t c, API_BASE_URL env = t ++ [c] → is_trimmed_unit c = false)).
  { unfold API_BASE_URL. destruct env as [s|]; simpl.
    - destruct (trim s) as [|c0 t0] eqn:Ht; simpl.
      + split; [done|]. exact Hdefault.
      + split; [done|]. rewrite <- Ht.
        destruct (trim_spec s) as (l & r & _ & _ & _ & Hhead & Hlast).
        by split.
    - split; [done|]. exact Hdefault. }
  destruct Hshape as (Hne & Hhead & Hlast).
  repeat split; try done.
  unfold API_BASE_URL at 1. simpl.
  rewrite (trim_fixed _ Hhead Hlast).
  by destruct (API_BASE_URL env).
Qed.

Lemma X1_witness :
  is_trimmed_unit 104 = false ∧ is_trimmed_unit 103 = false.
Proof.
  pose proof (X1_base_url_well_formed (Some (lit " https://api.example.org ")))
    as (_ & Hhead & Hlast & _).
  split.
  - exact (Hhead 104%N (lit "ttps://api.example.org") eq_refl).
  - exact (Hlast (lit "https://api.example.or") 103%N eq_refl).
Defined.

(** X2: white space around the query never reaches the backend: a padded
    query makes [askText] and [askChat] do exactly what the bare query
    does. *)
Theorem X2_query_padding_is_irrelevant (p : Platform) (l query r : jsstring)
    (image : option File) (w : World) :
  whitespace_only l = true → whitespace_only r = true →
  askText p (l ++ query ++ r) w = askText p query w
  ∧ askChat p (l ++ query ++ r) image w = askChat p query image w.
Proof.
  intros Hl Hr. unfold askText, askChat.
  by rewrite (trim_pad l query r Hl Hr).
Qed.

Lemma X2_witness :
  whitespace_only (lit "  ") = true
  ∧ askText secure_platform (lit "  " ++ lit "hello world" ++ lit "  ") fresh_world
    = askText secure_platform (lit "hello world") fresh_world.
Proof.
  split; [reflexivity|].
  exact (proj1 (X2_query_padding_is_irrelevant secure_platform
                  (lit "  ") (lit "hello world") (lit "  ") None fresh_world
                  eq_refl eq_refl)).
Defined.

End TrimMore.

(** ** The request gateway: what a rejection carries, what is logged *)

Section GatewayMore.

Lemma normalized_status_nonzero (error : Thrown) :
  ∃ z, status (normalizedError error) = JNumber z ∧ z ≠ 0%Z.
Proof.
  unfold normalizedError, js_or, opt_chain. simpl.
  destruct (thrown_response error) as [r|]; simpl.
  - destruct (response_status r =? 0)%Z eqn:Hz; simpl.
    + by exists 500%Z.
    + exists (response_status r). split; [done|]. by apply Z.eqb_neq.
  - by exists 500%Z.
Qed.

Lemma normalized_message_truthy (error : Thrown) :
  truthy (message (normalizedError error)) = true.
Proof.
  unfold normalizedError, js_or. simpl.
  destruct (truthy (optional_get _ DETAIL)) eqn:Hd; [exact Hd|].
  destruct (truthy (thrown_message error)) eqn:Hm; [exact Hm|done].
Qed.

(** X3: a request never rejects with a status of 0 or with an empty (or
    otherwise falsy) message: the reason is always a normalized record
    whose status is a non-zero number and whose message is truthy; and
    when the body offers no truthy [detail], the message is a string. *)
Theorem X3_rejection_is_displayable (p : Platform)
    (config : AxiosRequestConfig) (w : World) (reason : Thrown) :
  (request p config w).1 = Rejected reason →
  ∃ n z, reason = Normalized n
    ∧ status n = JNumber z ∧ z ≠ 0%Z
    ∧ truthy (message n) = true
    ∧ ∃ e, adapter p (if instanceof_FormData (data config)
                      then set_headers (delete CONTENT_TYPE (headers config)) config
                      else config) = inl e
        ∧ (match body_detail e with Some d => truthy d = false | None => True end →
           ∃ s, message n = JString s ∧ s ≠ []).
Proof.
  rewrite request_outcome.
  destruct (adapter p _) as [e|r] eqn:Hadapter; [|done].
  intros [= <-].
  destruct (normalized_status_nonzero (Native e)) as (z & Hz & Hnz).
  exists (normalizedError (Native e)), z.
  split; [done|]. split; [done|]. split; [done|].
  split; [apply normalized_message_truthy|].
  exists e. split; [done|].
  intros Hdetail. rewrite message_by_truthiness. simpl.
  assert (Hdescribed : ∃ s,
    match error_message e with
    | [] => JString (lit "Unknown API error")
    | _ :: _ => JString (error_message e)
    end = JString s ∧ s ≠ []).
  { destruct (error_message e) as [|c m]; eexists; split; done. }
  destruct (body_detail e) as [d|]; [|exact Hdescribed].
  by rewrite Hdetail.
Qed.

Lemma X3_witness :
  ∃ n z, status n = JNumber z ∧ z ≠ 0%Z ∧ truthy (message n) = true
    ∧ (request zero_status_platform json_request fresh_world).1
      = Rejected (Normalized n).
Proof.
  destruct (X3_rejection_is_displayable zero_status_platform json_request
              fresh_world
              (Normalized {| status := JNumber 500;
                             message := JString (lit "Request failed with status code 0") |})
              eq_refl) as (n & z & Hn & Hs & Hz & Hm & _).
  exists n, z. split; [exact Hs|]. split; [exact Hz|]. split; [exact Hm|].
  by rewrite <- Hn.
Defined.

Lemma request_console (p : Platform) (config : AxiosRequestConfig) (w : World) :
  console (request p config w).2
  = console w
    ++ (if DEV p
        then LogRequest (toUpperCase p <$> method config) (url config)
             :: match (request p config w).1 with
                | Rejected (Normalized n) => [LogError n]
                | _ => []
                end
        else []).
Proof.
  rewrite request_run.
  set (c := if instanceof_FormData (data config) then _ else _).
  assert (Hmc : method c = method config).
  { unfold c. by destruct (instanceof_FormData _). }
  assert (Huc : url c = url config).
  { unfold c. by destruct (instanceof_FormData _). }
  rewrite Hmc, Huc.
  destruct (adapter p c) as [e|r], (DEV p); simpl;
    rewrite ?app_nil_r, <- ?app_assoc; done.
Qed.

(** X4: what one gateway request does besides sending.  It never touches
    [localStorage].  Outside a development build it writes nothing to the
    console; in one it writes the upper-cased method and the path before
    sending and, if the request fails, the very record the promise is then
    rejected with. *)
Theorem X4_request_logging (p : Platform) (config : AxiosRequestConfig)
    (w : World) :
  localStorage (request p config w).2 = localStorage w
  ∧ console (request p config w).2
    = console w
      ++ (if DEV p
          then LogRequest (toUpperCase p <$> method config) (url config)
               :: match (request p config w).1 with
                  | Rejected (Normalized n) => [LogError n]
                  | _ => []
                  end
          else []).
Proof. split; [apply request_sent|apply request_console]. Qed.

Example production_request_is_silent :
  console (request production_platform json_request fresh_world).2 = [].
Proof. reflexivity. Qed.

Example development_failure_is_logged :
  console (request refusing_platform json_request fresh_world).2
  = [LogRequest (Some (lit "POST")) (Some (lit "/ask/text"));
     LogError {| status := JNumber 400;
                 message := JString (lit "Request failed with status code 400") |}].
Proof. reflexivity. Qed.

End GatewayMore.

(** ** The operations as a caller meets them *)

Section OperationsMore.



Lemma perform_run (p : Platform) (op : Operation) (w : World) :
  ∃ fd, perform p op w
        = postFormData p (endpoint op) fd (getSessionId p w).2
    ∧ getAll fd SESSION_ID = [EntryString (getSessionId p w).1].
Proof.
  destruct op as [query|image|query image]; simpl.
  - rewrite askText_run. by eexists.
  - rewrite askImage_run. by eexists.
  - rewrite askChat_run. eexists. split; [done|]. by destruct image.
Qed.

Lemma getSessionId_other_keys (p : Platform) (w : World) (k : jsstring) :
  k ≠ SESSION_KEY →
  localStorage (getSessionId p w).2 !! k = localStorage w !! k.
Proof.
  intros Hk. unfold getSessionId, persist_fresh_sid, getItem, setItem.
  destruct (localStorage w !! SESSION_KEY) as [v|];
    [destruct (truthy_string v)|]; simpl; try done;
    by rewrite lookup_insert_ne.
Qed.


Example production_failure_is_silent :
  (perform production_platform (Image leaf_jpg) fresh_world).1
  = Rejected (Normalized {| status := JNumber 500;
                            message := JString (lit "Network Error") |})
  ∧ console (perform production_platform (Image leaf_jpg) fresh_world).2 = []
  ∧ (λ c, (baseURL c, url c))
      <$> sent (perform production_platform (Image leaf_jpg) fresh_world).2
    = [(lit "https://api.example.org", Some (lit "/ask/image"))].
Proof. repeat split; reflexivity. Qed.

(** X6: an operation leaves every [localStorage] entry but the session
    key alone, and the session key too when it already holds a non-empty
    value; afterwards the key holds a non-empty identifier whether the
    request succeeded or not. *)
Theorem X6_operation_storage_frame (p : Platform) (op : Operation) (w : World) :
  (∀ k, k ≠ SESSION_KEY →
        localStorage (perform p op w).2 !! k = localStorage w !! k)
  ∧ (∀ v, localStorage w !! SESSION_KEY = Some v → v ≠ [] →
          localStorage (perform p op w).2 = localStorage w)
  ∧ ∃ sid, sid ≠ []
      ∧ localStorage (perform p op w).2 !! SESSION_KEY = Some sid.
Proof.
  destruct (perform_run p op w) as (fd & -> & _).
  destruct (postFormData_run p (endpoint op) fd (getSessionId p w).2)
    as (_ & -> & _).
  split; [|split].
  - intros k Hk. by apply getSessionId_other_keys.
  - intros v Hv Hne. by rewrite (getSessionId_stored p w v Hv Hne).
  - exists (getSessionId p w).1.
    destruct (getSessionId_post p w) as [Hin Hne]. by split.
Qed.

Lemma X6_witness :
  localStorage (perform production_platform (Text (lit "hi")) returning_world).2
  = localStorage returning_world
  ∧ localStorage (perform production_platform (Text (lit "hi")) fresh_world).2
      !! lit "theme" = None.
Proof.
  pose proof (X6_operation_storage_frame production_platform (Text (lit "hi"))
                returning_world) as (_ & Hkept & _).
  pose proof (X6_operation_storage_frame production_platform (Text (lit "hi"))
                fresh_world) as (Hother & _ & _).
  split.
  - apply (Hkept (lit "abc")); [reflexivity|discriminate].
  - rewrite (Hother (lit "theme")); [reflexivity|discriminate].
Defined.

(** X7: whatever the store holds under the session key (nothing, the
    empty string, an identifier), [getSessionId] returns a non-empty
    string, the store then holds exactly that string under the key, and
    nothing else has changed: no other entry, no console line, no
    request. *)
Theorem X7_getSessionId_postcondition (p : Platform) (w : World) :
  (getSessionId p w).1 ≠ []
  ∧ localStorage (getSessionId p w).2 !! SESSION_KEY = Some (getSessionId p w).1
  ∧ (∀ k, k ≠ SESSION_KEY →
          localStorage (getSessionId p w).2 !! k = localStorage w !! k)
  ∧ console (getSessionId p w).2 = console w
  ∧ sent (getSessionId p w).2 = sent w.
Proof.
  destruct (getSessionId_post p w) as [Hin Hne].
  destruct (getSessionId_frame p w) as [Hcon Hsent].
  repeat split; try done.
  intros k Hk. by apply getSessionId_other_keys.
Qed.

Lemma X7_witness :
  localStorage (getSessionId secure_platform blank_sid_world).2 !! lit "theme"
  = None.
Proof.
  pose proof (X7_getSessionId_postcondition secure_platform blank_sid_world)
    as (_ & _ & Hother & _).
  rewrite (Hother (lit "theme")); [reflexivity|discriminate].
Defined.

Lemma perform_all_stored (steps : list (Platform * Operation)) :
  ∀ (w : World) (sid : jsstring),
    localStorage w !! SESSION_KEY = Some sid → sid ≠ [] →
    ∃ cs, sent (perform_all steps w) = sent w ++ cs
      ∧ length cs = length steps
      ∧ Forall (λ c, session_ids c = [EntryString sid]) cs
      ∧ localStorage (perform_all steps w) = localStorage w.
Proof.
  induction steps as [|[p op] rest IH]; intros w sid Hsid Hne; simpl.
  - exists []. by rewrite app_nil_r.
  - destruct (perform_run p op w) as (fd & Hrun & Hids).
    rewrite (getSessionId_stored p w sid Hsid Hne) in Hrun, Hids.
    simpl in Hrun, Hids.
    destruct (postFormData_run p (endpoint op) fd w) as (Hsent & Hstore & _).
    rewrite <- Hrun in Hsent, Hstore.
    destruct (IH (perform p op w).2 sid) as (cs & Hcs & Hlen & Hall & Hkeep);
      [by rewrite Hstore|done|].
    eexists (_ :: cs). rewrite Hcs, Hsent, <- app_assoc. simpl.
    split; [done|]. split; [by rewrite Hlen|].
    split; [|by rewrite Hkeep].
    constructor; [|done]. unfold session_ids. simpl. exact Hids.
Qed.

(** X8: operations awaited one after another all carry one and the same
    [session_id], the one the first of them obtained, whatever each
    request's outcome and whatever the random and time sources give later
    on; each operation adds exactly one request, and the store ends up
    holding that identifier. *)
Theorem X8_one_session_id_across_operations (p : Platform) (op : Operation)
    (rest : list (Platform * Operation)) (w : World) :
  let sid := (getSessionId p w).1 in
  ∃ cs, sent (perform_all ((p, op) :: rest) w) = sent w ++ cs
    ∧ length cs = S (length rest)
    ∧ Forall (λ c, session_ids c = [EntryString sid]) cs
    ∧ localStorage (perform_all ((p, op) :: rest) w) !! SESSION_KEY = Some sid.
Proof.
  intros sid. simpl.
  destruct (perform_run p op w) as (fd & Hrun & Hids).
  destruct (postFormData_run p (endpoint op) fd (getSessionId p w).2)
    as (Hsent & Hstore & _).
  rewrite <- Hrun in Hsent, Hstore.
  rewrite (proj2 (getSessionId_frame p w)) in Hsent.
  destruct (getSessionId_post p w) as [Hin Hne].
  destruct (perform_all_stored rest (perform p op w).2 sid)
    as (cs & Hcs & Hlen & Hall & Hkeep); [by rewrite Hstore|done|].
  eexists (_ :: cs). rewrite Hcs, Hsent, <- app_assoc. simpl.
  split; [done|]. split; [by rewrite Hlen|]. split.
  - constructor; [|done]. unfold session_ids. simpl. exact Hids.
  - by rewrite Hkeep, Hstore.
Qed.

Example three_operations_one_session :
  session_ids
    <$> sent (perform_all [(refusing_platform, Text (lit "hi"));
                           (insecure_platform, Image leaf_jpg);
                           (production_platform, Chat (lit " ok ") None)]
                          fresh_world)
  = [[EntryString (lit "12345678-9abc-4ef0-9234-56789abcdef0")];
     [EntryString (lit "12345678-9abc-4ef0-9234-56789abcdef0")];
     [EntryString (lit "12345678-9abc-4ef0-9234-56789abcdef0")]].
Proof. reflexivity. Qed.

Lemma toString36_parse (z : Z) :
  (0 ≤ z)%Z → parse36 (toString36 z) = Z.to_N z.
Proof.
  intros Hz. destruct z as [|q|q]; [| |lia]; simpl;
    apply N_toString36_round_trip.
Qed.

(** X9: without [crypto.randomUUID], identifiers generated at different
    milliseconds differ, as long as the two timestamps have as many
    base-36 digits (all instants from 1972 to 2059 have eight). *)
Theorem X9_fallback_ids_differ_across_time (p1 p2 : Platform) (w1 w2 : World) :
  localStorage w1 !! SESSION_KEY = None →
  localStorage w2 !! SESSION_KEY = None →
  crypto_randomUUID p1 = None → crypto_randomUUID p2 = None →
  (0 ≤ Date_now p1)%Z → (0 ≤ Date_now p2)%Z →
  length (toString36 (Date_now p1)) = length (toString36 (Date_now p2)) →
  Date_now p1 ≠ Date_now p2 →
  (getSessionId p1 w1).1 ≠ (getSessionId p2 w2).1.
Proof.
  intros Hw1 Hw2 Hu1 Hu2 Ht1 Ht2 Hlen Hdiff.
  rewrite !getSessionId_fresh by auto. simpl.
  unfold fresh_sid. rewrite Hu1, Hu2. intros Heq.
  apply app_inj_1 in Heq as [Heq _]; [|exact Hlen].
  apply (f_equal parse36) in Heq.
  rewrite !toString36_parse in Heq by done. lia.
Qed.

Lemma X9_witness :
  (getSessionId insecure_platform fresh_world).1
  ≠ (getSessionId production_platform fresh_world).1.
Proof.
  apply X9_fallback_ids_differ_across_time;
    try reflexivity; try discriminate.
Defined.

End OperationsMore.

(** ** The weather strip *)

Section WeatherStrip.

Lemma run_snoc (evs : list Event) (ev : Event) (s : HeaderState) :
  run (evs ++ [ev]) s = step (run evs s) ev.
Proof. unfold run. by rewrite fold_left_app. Qed.

(** The state after any sequence of callbacks. *)
Lemma run_state (evs : list Event) (s : HeaderState) :
  weather (run evs s) = default (weather s) (last (accepted evs))
  ∧ currentTime (run evs s) = default (currentTime s) (last (ticks evs)).
Proof.
  induction evs as [|ev evs [IHw IHt]] using rev_ind; [done|].
  rewrite run_snoc. unfold accepted, ticks. rewrite !omap_app, !last_app.
  fold (accepted evs) (ticks evs).
  destruct ev as [now|http_status data| |]; simpl; try done.
  unfold on_data.
  destruct (truthy (optional_get data ERROR)); simpl; done.
Qed.

(** X10: the weather on display is always the body of the latest response
    that carried no truthy [error] (or the initial [null] when there was
    none), whatever the HTTP status of any response; responses with an
    error, failed fetches, refusals and clock ticks never change it.  The
    clock is the latest tick. *)
Theorem X10_weather_is_latest_accepted_body (evs : list Event)
    (s : HeaderState) :
  weather (run evs s) = default (weather s) (last (accepted evs))
  ∧ currentTime (run evs s) = default (currentTime s) (last (ticks evs))
  ∧ (∀ http_status data,
       weather (run (evs ++ [Fetched http_status data]) s)
       = if truthy (optional_get data (lit "error"))
         then weather (run evs s) else data)
  ∧ (∀ ev, (∀ http_status data, ev ≠ Fetched http_status data) →
           weather (run (evs ++ [ev]) s) = weather (run evs s)).
Proof.
  destruct (run_state evs s) as [Hw Ht].
  split; [exact Hw|]. split; [exact Ht|]. split.
  - intros http_status data. rewrite run_snoc. unfold step, on_data.
    change (lit "error") with ERROR.
    by destruct (truthy (optional_get data ERROR)).
  - intros ev Hev. rewrite run_snoc.
    destruct ev as [now|http_status data| |]; simpl; try done.
    by destruct (Hev http_status data).
Qed.

Lemma X10_witness :
  weather (run ([Fetched 200 sunny_body; Tick 5; Fetched 200 error_body]
                ++ [Denied]) (mount 0))
  = sunny_body.
Proof.
  pose proof (X10_weather_is_latest_accepted_body
                [Fetched 200 sunny_body; Tick 5; Fetched 200 error_body]
                (mount 0)) as (Hw & _ & _ & Hother).
  rewrite (Hother Denied); [exact Hw|discriminate].
Defined.

(** X11: what the strip shows after any sequence of callbacks from mount.
    It is the loading skeleton until a body without truthy [error] has
    arrived, and still the skeleton if the latest such body is itself
    falsy ([null], [0], [""], [false]).  Otherwise it shows that body's
    [location], [temp], [humidity] and [wind] as they are, the latest
    tick as date, and the cloud icon exactly when [condition] is the
    string ["cloudy"], the rain icon exactly when it is ["rainy"], the
    sun in every other case. *)
Theorem X11_strip_view (evs : list Event) (now : Z) :
  render (run evs (mount now))
  = match last (accepted evs) with
    | Some body =>
        if truthy body
        then Strip (optional_get body (lit "location"))
                   (default now (last (ticks evs)))
                   (getWeatherIcon body)
                   (optional_get body (lit "temp"))
                   (optional_get body (lit "humidity"))
                   (optional_get body (lit "wind"))
        else Skeleton
    | None => Skeleton
    end
  ∧ (∀ body,
       (getWeatherIcon body = Cloud
        ↔ optional_get body (lit "condition") = JString (lit "cloudy"))
       ∧ (getWeatherIcon body = CloudRain
          ↔ optional_get body (lit "condition") = JString (lit "rainy"))).
Proof.
  split.
  - destruct (run_state evs (mount now)) as [Hw Ht].
    unfold render. rewrite Hw, Ht. simpl.
    destruct (last (accepted evs)) as [body|]; simpl; [|done].
    by destruct (truthy body).
  - intros body. unfold getWeatherIcon.
    change (lit "condition") with CONDITION.
    destruct (optional_get body CONDITION) as [| |b|z|c|items|props];
      try (split; split; discriminate).
    destruct (decide (c = lit "cloudy")) as [->|Hc].
    + split; split; try done; discriminate.
    + destruct (decide (c = lit "rainy")) as [->|Hr].
      * split; split; try done; discriminate.
      * split; split; try discriminate; intros [= ->]; done.
Qed.

Example strip_after_error_only :
  render (run [Tick 7; Fetched 502 error_body; FetchFailed; Denied] (mount 0))
  = Skeleton.
Proof. reflexivity. Qed.

Example strip_after_null_body :
  render (run [Fetched 200 JNull] (mount 0)) = Skeleton.
Proof. reflexivity. Qed.

Example strip_after_sunny :
  render (run [Fetched 200 sunny_body; Tick 60000] (mount 0))
  = Strip (JString (lit "Pune")) 60000 Sun (JNumber 31) (JNumber 40) (JNumber 12).
Proof. reflexivity. Qed.

(** An HTTP error whose body names its complaint [detail] is taken for
    weather. *)
Example strip_after_http_error_without_error_key :
  render (run [Fetched 500 (JObject [(DETAIL, JString (lit "Internal Server Error"))])]
              (mount 0))
  = Strip JUndefined 0 Sun JUndefined JUndefined JUndefined.
Proof. reflexivity. Qed.

End WeatherStrip.
